(** * AG2 MCP notebooks: the generated server script, the [MCPProxy] stub
      and the client connection cells.

    The development follows the two notebooks of the repository:
    - [notebook/mcp/mcp_client.ipynb]: the cell that writes [mcp_server.py]
      (tools [add] and [multiply], resource [get_server_file], the argparse
      front end) and the stdio / SSE connection cells;
    - the MCP proxy notebook: the [MCPProxy] class and four more connection
      cells.

    Python [int] is unbounded, so it is [Z]; [str] is [string]; a [dict] with
    string keys is a [gmap string _]; exceptions are an explicit [result]. *)

From Stdlib Require Import ZArith List Ascii.
From stdpp Require Import gmap strings list fin_maps.

Local Open Scope string_scope.
Local Open Scope Z_scope.
Local Open Scope list_scope.

(** ** Python runtime fragments used by the notebooks *)

Inductive exn : Type :=
  | KeyError (key : string)
  | ToolError (tool : string)
  | ValidationError (parameter : string)
  | ResourceError (uri : string).

Inductive result (A : Type) : Type :=
  | Return (a : A)
  | Raise (e : exn).

Arguments Return {A} a.
Arguments Raise {A} e.

Definition bind {A B : Type} (r : result A) (k : A -> result B) : result B :=
  match r with
  | Return a => k a
  | Raise e => Raise e
  end.

Notation "x <- r ;; k" := (bind r (fun x => k))
  (at level 100, r at next level, right associativity).

Module PyDict.

(** [d[k]]: raises [KeyError] when the key is absent. *)
Definition getitem {V : Type} (d : gmap string V) (k : string) : result V :=
  match d !! k with
  | Some v => Return v
  | None => Raise (KeyError k)
  end.

(** [d.get(k, dflt)]: never raises, the default stands in for a missing key. *)
Definition get {V : Type} (d : gmap string V) (k : string) (dflt : V) : V :=
  match d !! k with
  | Some v => v
  | None => dflt
  end.

End PyDict.

(** ** The script [mcp_server.py] *)

Module McpServer.

(** [@mcp.tool() def add(a: int, b: int) -> int: return a + b] *)
Definition add (a b : Z) : Z := a + b.

(** [@mcp.tool() def multiply(a: int, b: int) -> int: return a * b] *)
Definition multiply (a b : Z) : Z := a * b.

(** [files = { "ag2": "AG has released 0.8.5 version on 2025-04-03", }] *)
Definition files : gmap string string :=
  {[ "ag2" := "AG has released 0.8.5 version on 2025-04-03" ]}.

(** [return files.get(name, f"File not found: {name}")]: the f-string is
    evaluated first, then handed to [dict.get] as the default. *)
Definition get_server_file (name : string) : result string :=
  let not_found := "File not found: " +:+ name in
  Return (PyDict.get files name not_found).

(** The same body with direct indexing, [files[name]], for comparison. *)
Definition get_server_file_indexed (name : string) : result string :=
  PyDict.getitem files name.

(** *** Tool registry

    [@mcp.tool()] registers each function under its own name; a call names
    the tool and passes a mapping from parameter names to values. Both
    tools take the integer parameters [a] and [b]. *)

Record tool : Type := {
  tool_name : string;
  tool_description : string;
  tool_fn : Z -> Z -> Z
}.

Definition tools : list tool :=
  [ {| tool_name := "add"; tool_description := "Add two numbers";
       tool_fn := add |};
    {| tool_name := "multiply"; tool_description := "Multiply two numbers";
       tool_fn := multiply |} ].

Definition find_tool (name : string) : result tool :=
  match List.find (fun t => String.eqb (tool_name t) name) tools with
  | Some t => Return t
  | None => Raise (ToolError name)
  end.

Definition argument (arguments : gmap string Z) (p : string) : result Z :=
  match arguments !! p with
  | Some v => Return v
  | None => Raise (ValidationError p)
  end.

Definition call_tool (name : string) (arguments : gmap string Z) : result Z :=
  t <- find_tool name ;;
  a <- argument arguments "a" ;;
  b <- argument arguments "b" ;;
  Return (tool_fn t a b).

(** *** Resource template [server-file://{name}]

    [@mcp.resource("server-file://{name}")]: the literal part of the
    template must match the URI, the parameter takes what is left, which
    must be non-empty and free of ['/']. *)

Definition resource_template : string := "server-file://{name}".

Fixpoint has_slash (s : string) : bool :=
  match s with
  | EmptyString => false
  | String c s' => if Ascii.eqb c "/"%char then true else has_slash s'
  end.

Fixpoint match_template (template uri : string) : option string :=
  match template with
  | EmptyString => None
  | String t template' =>
      if Ascii.eqb t "{"%char then
        match uri with
        | EmptyString => None
        | String _ _ => if has_slash uri then None else Some uri
        end
      else
        match uri with
        | EmptyString => None
        | String u uri' =>
            if Ascii.eqb t u then match_template template' uri' else None
        end
  end.

Definition read_resource (uri : string) : result string :=
  match match_template resource_template uri with
  | Some name => get_server_file name
  | None => Raise (ResourceError uri)
  end.

(** *** Command line

    [parser.add_argument("transport", choices=["stdio", "sse"], ...)]
    followed by [parser.parse_args()]. [argv] holds the words after the
    script name; option strings ([-h]) are not part of this model. *)

Definition transport_choices : list string := ["stdio"; "sse"].

Record namespace : Type := { transport : string }.

Inductive argument_error : Type :=
  | MissingRequired (dest : string)
  | InvalidChoice (dest value : string)
  | UnrecognizedArguments (extras : list string).

Inductive parse_outcome : Type :=
  | Parsed (args : namespace)
  | ArgumentError (e : argument_error).

(** [value not in action.choices] raises the argument error. *)
Definition check_value (choices : list string) (value : string) : bool :=
  existsb (String.eqb value) choices.

Definition parse_args (argv : list string) : parse_outcome :=
  match argv with
  | [] => ArgumentError (MissingRequired "transport")
  | value :: extras =>
      if check_value transport_choices value then
        match extras with
        | [] => Parsed {| transport := value |}
        | _ :: _ => ArgumentError (UnrecognizedArguments extras)
        end
      else ArgumentError (InvalidChoice "transport" value)
  end.

(** [if __name__ == "__main__":] parse, then [mcp.run(transport=...)].
    An argument error ends the process with status 2 before [run]. *)
Inductive startup : Type :=
  | Running (mode : string)
  | Exit (status : Z).

Definition main (argv : list string) : startup :=
  match parse_args argv with
  | Parsed args => Running (transport args)
  | ArgumentError _ => Exit 2
  end.

End McpServer.
(** ** The cell that writes [mcp_server.py] *)

Module ServerScript.

Definition dq : string := String "034"%char EmptyString.
Definition nl : string := String "010"%char EmptyString.

(** A double-quoted Python literal, and a docstring in triple quotes. *)
Definition q (s : string) : string := dq +:+ s +:+ dq.
Definition doc (s : string) : string := dq +:+ dq +:+ dq +:+ s +:+ dq +:+ dq +:+ dq.

Fixpoint unlines (ls : list string) : string :=
  match ls with
  | [] => EmptyString
  | l :: ls' => l +:+ nl +:+ unlines ls'
  end.

Definition script_lines : list string :=
  [ "# mcp_server.py";
    "import argparse";
    "from mcp.server.fastmcp import FastMCP";
    EmptyString;
    "mcp = FastMCP(" +:+ q "McpServer" +:+ ")";
    EmptyString;
    EmptyString;
    "@mcp.tool()";
    "def add(a: int, b: int) -> int:";
    "    " +:+ doc "Add two numbers";
    "    return a + b";
    EmptyString;
    EmptyString;
    "@mcp.tool()";
    "def multiply(a: int, b: int) -> int:";
    "    " +:+ doc "Multiply two numbers";
    "    return a * b";
    EmptyString;
    EmptyString;
    "files = {";
    "    " +:+ q "ag2" +:+ ": " +:+ q "AG has released 0.8.5 version on 2025-04-03" +:+ ",";
    "}";
    EmptyString;
    "@mcp.resource(" +:+ q "server-file://{name}" +:+ ")";
    "def get_server_file(name: str) -> str:";
    "    " +:+ doc "Get a file content";
    "    return files.get(name, f" +:+ q "File not found: {name}" +:+ ")";
    EmptyString;
    EmptyString;
    "if __name__ == " +:+ q "__main__" +:+ ":";
    "    parser = argparse.ArgumentParser(description=" +:+ q "MCP Server" +:+ ")";
    "    parser.add_argument(" +:+ q "transport" +:+ ", choices=[" +:+ q "stdio"
      +:+ ", " +:+ q "sse" +:+ "], help="
      +:+ q "Transport mode (stdio, sse or streamable-http)" +:+ ")";
    "    args = parser.parse_args()";
    EmptyString;
    "    mcp.run(transport=args.transport)" ].

(** The triple-quoted literal of the cell, line by line, each line ended
    by a newline. *)
Definition mcp_server_file_content : string := unlines script_lines.

(** [Path("mcp_server.py")] *)
Definition mcp_server_path : string := "mcp_server.py".

(** [Path.write_text(data)]: the file at the path holds exactly [data]
    afterwards, whatever it held before; the call returns the number of
    characters written. The file system maps a path to its text. *)
Definition write_text (path data : string) (fs : gmap string string)
  : nat * gmap string string :=
  (String.length data, <[path := data]> fs).

(** [mcp_server_path.write_text(mcp_server_file_content)]: the cell reads
    no variable, argument or environment entry. *)
Definition write_server_script (fs : gmap string string)
  : nat * gmap string string :=
  write_text mcp_server_path mcp_server_file_content fs.

End ServerScript.

(** ** The [MCPProxy] class *)

Module McpProxy.

(** An instance is its class and its attribute dictionary; the store maps
    an object identity to the instance. Attribute values are whatever the
    caller passes (a [str], a [Path], a [list]): they are stored as they
    come, so a list stays shared with the caller. *)
Record object (value : Type) : Type := {
  class_name : string;
  attrs : gmap string value
}.

Arguments class_name {value} o.
Arguments attrs {value} o.

Section Class.

Variable value : Type.

(** [self.name = v] *)
Definition setattr (self : positive) (name : string) (v : value)
    (heap : gmap positive (object value)) : gmap positive (object value) :=
  alter (fun o => {| class_name := class_name o;
                     attrs := <[name := v]> (attrs o) |}) self heap.

(** [def __init__(self, openapi_url, client_source_path, servers)] *)
Definition init (self : positive) (openapi_url client_source_path servers : value)
    (heap : gmap positive (object value)) : gmap positive (object value) :=
  let heap := setattr self "openapi_url" openapi_url heap in
  let heap := setattr self "client_source_path" client_source_path heap in
  setattr self "servers" servers heap.

(** Allocation of an empty instance at an identity not in use. *)
Definition new (cls : string) (heap : gmap positive (object value))
  : positive * gmap positive (object value) :=
  let self := fresh (dom heap) in
  (self, <[self := {| class_name := cls; attrs := ∅ |}]> heap).

(** [MCPProxy(openapi_url=..., client_source_path=..., servers=...)] *)
Definition MCPProxy (openapi_url client_source_path servers : value)
    (heap : gmap positive (object value))
  : positive * gmap positive (object value) :=
  let (self, heap) := new "MCPProxy" heap in
  (self, init self openapi_url client_source_path servers heap).

(** [@classmethod def create(cls, openapi_url, client_source_path, servers)]:
    the body names [MCPProxy] itself and does not use [cls]. *)
Definition create (cls : string) (openapi_url client_source_path servers : value)
    (heap : gmap positive (object value))
  : positive * gmap positive (object value) :=
  MCPProxy openapi_url client_source_path servers heap.

End Class.

Arguments setattr {value} self name v heap.
Arguments init {value} self openapi_url client_source_path servers heap.
Arguments new {value} cls heap.
Arguments MCPProxy {value} openapi_url client_source_path servers heap.
Arguments create {value} cls openapi_url client_source_path servers heap.

End McpProxy.

(** ** The client connection cells *)

Module ClientDriver.

(** [datetime.timedelta], normalised as Python keeps it. *)
Record timedelta : Type := {
  days : Z;
  seconds : Z;
  microseconds : Z
}.

(** [timedelta(seconds=s)] *)
Definition timedelta_seconds (s : Z) : timedelta :=
  {| days := s / 86400; seconds := s mod 86400; microseconds := 0 |}.

(** The transport context manager a cell opens. *)
Inductive connection : Type :=
  | stdio_client (command : string) (args : list string)
      (env : option (list (string * string)))
  | sse_client (url : string).

(** Requests a session sends to the server. *)
Inductive request : Type :=
  | initialize
  | list_tools
  | call_tool (name : string) (arguments : list (string * Z))
  | other_request (method : string).

(** Statements of the body of a connection block. The [print] calls of the
    cells send nothing on the session and are not statements here. *)
Inductive stmt : Type :=
  | await_initialize
  | await_print_available_tools
  | await_call_tool (name : string) (params : list (string * Z))
  | await_create_toolkit_and_run.

(** [async with <connection> as ..., ClientSession(..., read_timeout_seconds=...)
    as session: <body>] *)
Record cell : Type := {
  transport : connection;
  read_timeout_seconds : option timedelta;
  body : list stmt
}.

(** What the SDK observes. A connection attempt and a request carry whether
    they succeeded; a failure is an exception that leaves the block. *)
Inductive event : Type :=
  | Connect (c : connection) (ok : bool)
  | NewSession (read_timeout : option timedelta)
  | Request (r : request) (ok : bool)
  | CloseSession
  | Disconnect.

Section Run.

(** The requests [autogen.mcp.create_toolkit(session=session)] sends, and
    those sent while [agent.a_run(...)] and [result.process()] run: both
    belong to the imported framework and are left arbitrary. *)
Variable create_toolkit : list request.
Variable a_run : list request.

(** [print_available_tools] awaits [session.list_tools()] and prints;
    [create_toolkit_and_run] awaits [create_toolkit], then the agent run. *)
Definition requests_of (s : stmt) : list request :=
  match s with
  | await_initialize => [initialize]
  | await_print_available_tools => [list_tools]
  | await_call_tool name params => [call_tool name params]
  | await_create_toolkit_and_run => create_toolkit ++ a_run
  end.

(** [ok k] tells whether the [k]-th SDK call of the cell succeeds. The
    requests are sent in order until one raises. *)
Fixpoint issue (ok : nat -> bool) (k : nat) (rs : list request) : list event :=
  match rs with
  | [] => []
  | r :: rs' =>
      if ok k then Request r true :: issue ok (S k) rs'
      else [Request r false]
  end.

(** One execution of a cell: enter the transport, enter the session, run
    the body, then leave the session and the transport, also when the
    body raised. *)
Definition run (ok : nat -> bool) (c : cell) : list event :=
  if ok 0%nat then
    Connect (transport c) true
      :: NewSession (read_timeout_seconds c)
      :: issue ok 1 (flat_map requests_of (body c))
      ++ [CloseSession; Disconnect]
  else [Connect (transport c) false].

End Run.

(** *** The cells of [mcp_client.ipynb] *)

Definition client_stdio_cell : cell :=
  {| transport := stdio_client "python" ["mcp_server.py"; "stdio"] None;
     read_timeout_seconds := Some (timedelta_seconds 30);
     body := [await_initialize; await_create_toolkit_and_run] |}.

Definition client_sse_cell : cell :=
  {| transport := sse_client "http://127.0.0.1:8000/sse";
     read_timeout_seconds := None;
     body := [await_initialize; await_create_toolkit_and_run] |}.

(** *** The cells of the MCP proxy notebook *)

Definition proxy_tools_cell : cell :=
  {| transport := stdio_client "python" ["mcp_whatsapp"; "stdio"] None;
     read_timeout_seconds := Some (timedelta_seconds 30);
     body := [await_initialize; await_print_available_tools;
              await_call_tool "add" [("a", 2); ("b", 3)]] |}.

Definition proxy_stdio_cell : cell :=
  {| transport :=
       stdio_client "python" ["mcp_whatsapp/main_tmp.py"; "stdio"] (Some []);
     read_timeout_seconds := Some (timedelta_seconds 30);
     body := [await_initialize; await_create_toolkit_and_run] |}.

Definition proxy_sse_cell : cell :=
  {| transport := sse_client "http://127.0.0.1:8000/sse";
     read_timeout_seconds := None;
     body := [await_initialize; await_create_toolkit_and_run] |}.

Definition proxy_secrets_cell : cell :=
  {| transport :=
       stdio_client "python" ["mcp_whatsapp/main_tmp.py"; "stdio"]
         (Some [("API_KEY", "your-api-key"); ("OAUTH2_TOKEN", "your-oauth2-token")]);
     read_timeout_seconds := Some (timedelta_seconds 30);
     body := [await_initialize; await_create_toolkit_and_run] |}.

Definition connection_cells : list cell :=
  [ client_stdio_cell; client_sse_cell; proxy_tools_cell; proxy_stdio_cell;
    proxy_sse_cell; proxy_secrets_cell ].

(** *** Predicates on traces *)

Definition is_tool_request (r : request) : bool :=
  match r with
  | list_tools | call_tool _ _ => true
  | initialize | other_request _ => false
  end.

Definition is_stdio (c : connection) : bool :=
  match c with
  | stdio_client _ _ _ => true
  | sse_client _ => false
  end.

(** Scans a trace: [false] as soon as a tool request shows up while no
    successful [initialize] has been seen. *)
Fixpoint initialized_first (ready : bool) (t : list event) : bool :=
  match t with
  | [] => true
  | Request initialize true :: t' => initialized_first true t'
  | Request r _ :: t' =>
      if is_tool_request r then ready && initialized_first ready t'
      else initialized_first ready t'
  | _ :: t' => initialized_first ready t'
  end.

End ClientDriver.

(** ** Words of the command line *)

Module Argv.

(** A word that argparse reads as a value of a positional argument: it does
    not begin with ['-']. The words that do ([-h], [--]) are options or
    separators and are outside [McpServer.parse_args]. *)
Definition plain_word (w : string) : bool := negb (String.prefix "-" w).

End Argv.

(** ** [__init__] as one update of the instance *)

Module ProxyInit.

Import McpProxy.

(** The three assignments of [__init__], applied to the instance itself. *)
Definition initialised {value : Type}
    (openapi_url client_source_path servers : value)
    (o : object value) : object value :=
  {| class_name := class_name o;
     attrs := <["servers" := servers]>
                (<["client_source_path" := client_source_path]>
                   (<["openapi_url" := openapi_url]> (attrs o))) |}.

End ProxyInit.

(** ** Reading a trace *)

Module Traces.

Import ClientDriver.


(** The command line a stdio cell hands to the operating system. *)
Definition command_line (c : connection) : list string :=
  match c with
  | stdio_client command args _ => command :: args
  | sse_client _ => []
  end.

End Traces.

(** ** The tool-listing cell of the MCP proxy notebook

    [print_available_tools] and the body of the first stdio block: what is
    printed and how the block ends, given what the session answers. *)

Module ToolsCell.

Inductive exception : Type :=
  | McpError (message : string)
  | IndexError
  | AttributeError (attribute : string).

Inductive outcome (A : Type) : Type :=
  | Done (a : A)
  | Raised (e : exception).

Arguments Done {A} a.
Arguments Raised {A} e.

(** A step prints some lines (one per [print] call) and then returns or
    raises. *)
Definition io (A : Type) : Type := (list string * outcome A)%type.

#[global] Instance io_ret : MRet io := fun A a => ([], Done a).

#[global] Instance io_bind : MBind io := fun A B k m =>
  match m with
  | (out, Done a) => let (out', r) := k a in (out ++ out', r)
  | (out, Raised e) => (out, Raised e)
  end.

Definition print (line : string) : io unit := ([line], Done tt).

Definition await {A : Type} (reply : outcome A) : io A := ([], reply).

Definition raise {A : Type} (e : exception) : io A := ([], Raised e).

(** [for x in xs: body(x)] *)
Fixpoint for_each {A : Type} (xs : list A) (body : A -> io unit) : io unit :=
  match xs with
  | [] => mret tt
  | x :: xs' => body x ;; for_each xs' body
  end.

(** A tool as the server lists it. The description is optional; the input
    schema is a dictionary, kept here as the text [str] gives for it. *)
Record tool : Type := {
  name : string;
  description : option string;
  inputSchema : string
}.

(** An entry of the content list of a tool result; only text entries have
    the attribute [text]. *)
Inductive content : Type :=
  | TextContent (text : string)
  | OtherContent.

(** What the session answers to the three awaited calls of the block. *)
Record session : Type := {
  initialize : outcome unit;
  list_tools : outcome (list tool);
  call_tool : string -> list (string * Z) -> outcome (list content)
}.

(** An f-string field: [None] prints as the word None. *)
Definition format_optional (o : option string) : string :=
  match o with
  | Some s => s
  | None => "None"
  end.

(** [f"- {tool.name}: {tool.description} ({tool.inputSchema})"] *)
Definition tool_line (t : tool) : string :=
  "- " +:+ name t +:+ ": " +:+ format_optional (description t)
    +:+ " (" +:+ inputSchema t +:+ ")".

(** [async def print_available_tools(session)] *)
Definition print_available_tools (s : session) : io unit :=
  tools ← await (list_tools s);
  print "Available tools:" ;;
  for_each tools (fun t => print (tool_line t)).

(** [params = {"a": 2, "b": 3}] and the text [str(params)] gives. *)
Definition params : list (string * Z) := [("a", 2); ("b", 3)].
Definition params_text : string := "{'a': 2, 'b': 3}".

(** [add_result.content[0].text] *)
Definition first_text (result_content : list content) : io string :=
  match result_content with
  | [] => raise IndexError
  | TextContent text :: _ => mret text
  | OtherContent :: _ => raise (AttributeError "text")
  end.

Definition result_line (text : string) : string :=
  "Result of calling tool 'add' with params '" +:+ params_text
    +:+ "' is '" +:+ text +:+ "'".

(** The body of the block: initialize, list the tools, call [add], print a
    blank line and the result line. *)
Definition tools_cell_body (s : session) : io unit :=
  await (initialize s) ;;
  print_available_tools s ;;
  add_result ← await (call_tool s "add" params);
  print EmptyString ;;
  text ← first_text add_result;
  print (result_line text).

End ToolsCell.

(** ** The directory set-up of the MCP proxy notebook

    [shutil.rmtree(mcp_whatsapp_path, ignore_errors=True)] followed by
    [mcp_whatsapp_path.mkdir(parents=True, exist_ok=True)]. A path is the list
    of its components below the working directory, which is the empty list
    and always a directory. *)

Module ProxySetup.

Inductive node : Type :=
  | Dir
  | File (text : string).

Inductive os_error : Type :=
  | FileExistsError
  | NotADirectoryError.

Inductive outcome (A : Type) : Type :=
  | Done (a : A)
  | Failed (e : os_error).

Arguments Done {A} a.
Arguments Failed {A} e.

(** [Path() / "mcp_whatsapp"] *)
Definition mcp_whatsapp_path : list string := ["mcp_whatsapp"].

(** [Path.exists()] *)
Definition path_exists (path : list string) (fs : gmap (list string) node) : bool :=
  match path with
  | [] => true
  | _ :: _ => bool_decide (is_Some (fs !! path))
  end.

(** [shutil.rmtree(path, ignore_errors=True)]: a directory goes with all
    that lies below it; a missing path or a regular file is an error, which
    is ignored and leaves the file system as it was. *)
Definition rmtree_ignore_errors (path : list string)
    (fs : gmap (list string) node) : gmap (list string) node :=
  match fs !! path with
  | Some Dir => filter (fun entry => ~ path `prefix_of` entry.1) fs
  | Some (File _) => fs
  | None => fs
  end.

(** [Path.mkdir(parents=True, exist_ok=True)]: walks down the components,
    creating the directories that are missing; an existing directory is
    accepted, a regular file in the way is an error. *)
Fixpoint mkdir_from (above below : list string)
    (fs : gmap (list string) node) : outcome (gmap (list string) node) :=
  match below with
  | [] => Done fs
  | component :: below' =>
      let path := above ++ [component] in
      match fs !! path with
      | Some Dir => mkdir_from path below' fs
      | Some (File _) =>
          Failed (match below' with
                  | [] => FileExistsError
                  | _ :: _ => NotADirectoryError
                  end)
      | None => mkdir_from path below' (<[path := Dir]> fs)
      end
  end.

Definition mkdir_parents_exist_ok (path : list string)
    (fs : gmap (list string) node) : outcome (gmap (list string) node) :=
  mkdir_from [] path fs.

(** The two calls of the cell, in order. *)
Definition prepare_directory (fs : gmap (list string) node)
  : outcome (gmap (list string) node) :=
  mkdir_parents_exist_ok mcp_whatsapp_path
    (rmtree_ignore_errors mcp_whatsapp_path fs).

End ProxySetup.

(** * Properties *)

(** ** Tools *)

Section ToolFacts.

Import McpServer.

Lemma find_tool_add : find_tool "add" = Return (Build_tool "add" "Add two numbers" add).
Proof. reflexivity. Qed.

Lemma find_tool_multiply :
  find_tool "multiply" = Return (Build_tool "multiply" "Multiply two numbers" multiply).
Proof. reflexivity. Qed.

Lemma arguments_a (a b : Z) :
  argument ({[ "a" := a; "b" := b ]} : gmap string Z) "a" = Return a.
Proof. unfold argument. by rewrite lookup_insert_eq. Qed.

Lemma arguments_b (a b : Z) :
  argument ({[ "a" := a; "b" := b ]} : gmap string Z) "b" = Return b.
Proof.
  unfold argument.
  rewrite lookup_insert_ne by discriminate.
  by rewrite lookup_singleton_eq.
Qed.

Lemma call_tool_binary (name : string) (t : tool) (a b : Z) :
  find_tool name = Return t ->
  call_tool name {[ "a" := a; "b" := b ]} = Return (tool_fn t a b).
Proof.
  intros Hfind. unfold call_tool.
  rewrite Hfind, arguments_a, arguments_b. reflexivity.
Qed.


End ToolFacts.

(** C1: for all integers [a] and [b] the [add] tool returns [a + b], both
    as the function of the script and when called by name with the mapping
    of [a] and [b]; for 2 and 3 it returns 5, and for 123223 and 456789 it
    returns 580012. *)
Theorem add_returns_sum :
  forall a b : Z,
    McpServer.add a b = a + b
    /\ McpServer.call_tool "add" {[ "a" := a; "b" := b ]} = Return (a + b)
    /\ McpServer.call_tool "add" {[ "a" := 2; "b" := 3 ]} = Return 5
    /\ McpServer.call_tool "add" {[ "a" := 123223; "b" := 456789 ]} = Return 580012.
Proof.
  intros a b. split; [reflexivity|].
  repeat split; apply (call_tool_binary "add" _ _ _ find_tool_add).
Qed.

(** C9: for all integers [a] and [b] the [multiply] tool returns [a * b],
    as the function of the script and when called by name. *)
Theorem multiply_returns_product :
  forall a b : Z,
    McpServer.multiply a b = a * b
    /\ McpServer.call_tool "multiply" {[ "a" := a; "b" := b ]} = Return (a * b).
Proof.
  intros a b. split; [reflexivity|].
  apply (call_tool_binary "multiply" _ _ _ find_tool_multiply).
Qed.

(** ** The resource [get_server_file] *)

Section ResourceFacts.

Import McpServer.

Lemma files_lookup_ag2 :
  files !! "ag2" = Some "AG has released 0.8.5 version on 2025-04-03".
Proof. unfold files. apply lookup_singleton_eq. Qed.

Lemma files_lookup_None (name : string) :
  files !! name = None <-> name <> "ag2".
Proof.
  unfold files. rewrite lookup_singleton_None. split; intros H E; by apply H.
Qed.

Lemma files_keys : dom files = {[ "ag2" ]}.
Proof. unfold files. apply dom_singleton_L. Qed.

(** With direct indexing the unknown name would have raised. *)
Lemma indexed_lookup_raises :
  get_server_file_indexed "unknown" = Raise (KeyError "unknown").
Proof. reflexivity. Qed.

Lemma get_dflt_total {V : Type} (d : gmap string V) (k : string) (dflt : V) :
  (d !! k = Some (PyDict.get d k dflt))
  \/ (d !! k = None /\ PyDict.get d k dflt = dflt).
Proof. unfold PyDict.get. destruct (d !! k); [left|right]; auto. Qed.

Lemma match_template_server_file (name : string) :
  name <> EmptyString -> has_slash name = false ->
  match_template resource_template ("server-file://" +:+ name) = Some name.
Proof.
  intros Hne Hslash. simpl. destruct name as [|c name']; [congruence|].
  simpl in Hslash |- *. rewrite Hslash. reflexivity.
Qed.

Lemma read_resource_server_file (name : string) :
  name <> EmptyString -> has_slash name = false ->
  read_resource ("server-file://" +:+ name) = get_server_file name.
Proof.
  intros Hne Hslash. unfold read_resource.
  rewrite (match_template_server_file name Hne Hslash). reflexivity.
Qed.

End ResourceFacts.

(** C2: the resource [server-file://ag2], that is [get_server_file] called
    with the name [ag2], returns exactly the string
    [AG has released 0.8.5 version on 2025-04-03]. *)
Theorem get_server_file_ag2 :
  McpServer.get_server_file "ag2"
    = Return "AG has released 0.8.5 version on 2025-04-03"
  /\ McpServer.read_resource "server-file://ag2"
    = Return "AG has released 0.8.5 version on 2025-04-03".
Proof.
  assert (H : McpServer.get_server_file "ag2"
              = Return "AG has released 0.8.5 version on 2025-04-03").
  { unfold McpServer.get_server_file, PyDict.get.
    rewrite files_lookup_ag2. reflexivity. }
  split; [exact H|].
  rewrite <- H. apply (read_resource_server_file "ag2"); [discriminate|reflexivity].
Qed.

(** C3: for every name that is not a key of [files], [get_server_file] does
    not raise: it returns the string [File not found: ] followed by the
    name. *)
Theorem get_server_file_not_found :
  forall name : string,
    McpServer.files !! name = None ->
    McpServer.get_server_file name = Return ("File not found: " +:+ name).
Proof.
  intros name Hnone.
  unfold McpServer.get_server_file, PyDict.get. rewrite Hnone. reflexivity.
Qed.

Lemma get_server_file_unknown :
  McpServer.files !! "unknown" = None
  /\ McpServer.get_server_file "unknown" = Return "File not found: unknown".
Proof.
  split.
  - apply files_lookup_None. discriminate.
  - apply (get_server_file_not_found "unknown").
    apply files_lookup_None. discriminate.
Defined.

(** C10: [get_server_file] is total: for every name it returns a string and
    never raises; the string is the table entry when the name is a key and
    the not-found message otherwise, as [dict.get] with a default gives. *)
Theorem get_server_file_total :
  forall name : string,
    exists s : string,
      McpServer.get_server_file name = Return s
      /\ (McpServer.files !! name = Some s
          \/ (McpServer.files !! name = None
              /\ s = "File not found: " +:+ name)).
Proof.
  intros name.
  exists (PyDict.get McpServer.files name ("File not found: " +:+ name)).
  split; [reflexivity|]. apply get_dflt_total.
Qed.

(** ** [MCPProxy.create] *)

Section ProxyFacts.

Import McpProxy.

Variable value : Type.

Lemma setattr_insert (self : positive) (name : string) (v : value)
    (o : object value) (heap : gmap positive (object value)) :
  setattr self name v (<[self := o]> heap)
  = <[self := {| class_name := class_name o;
                 attrs := <[name := v]> (attrs o) |}]> heap.
Proof. unfold setattr. rewrite alter_insert_eq. reflexivity. Qed.

Lemma setattr_absent (self : positive) (name : string) (v : value)
    (heap : gmap positive (object value)) :
  heap !! self = None -> setattr self name v heap = heap.
Proof.
  intros Hnone. unfold setattr. apply map_eq. intros i.
  destruct (decide (self = i)) as [<-|Hne].
  - rewrite lookup_alter_eq, Hnone. reflexivity.
  - by rewrite lookup_alter_ne.
Qed.

Lemma new_fresh (cls : string) (heap : gmap positive (object value)) :
  heap !! fst (new cls heap) = None.
Proof. unfold new. simpl. apply not_elem_of_dom. apply is_fresh. Qed.

Lemma MCPProxy_heap (openapi_url client_source_path servers : value)
    (heap : gmap positive (object value)) :
  MCPProxy openapi_url client_source_path servers heap
  = (fresh (dom heap),
     <[fresh (dom heap) :=
         {| class_name := "MCPProxy";
            attrs := {[ "servers" := servers;
                        "client_source_path" := client_source_path;
                        "openapi_url" := openapi_url ]} |}]> heap).
Proof.
  unfold MCPProxy, new, init. f_equal.
  rewrite !setattr_insert. simpl. rewrite insert_empty. reflexivity.
Qed.

End ProxyFacts.

(** C4: for all arguments, [MCPProxy.create(url, path, servers)] returns a
    new [MCPProxy] instance whose attributes are exactly [openapi_url],
    [client_source_path] and [servers], equal to the three arguments, and
    changes nothing else: the identity was unused before, and without the
    new instance the store is the one before the call. *)
Theorem create_stores_arguments :
  forall (value : Type) (cls : string) (url path servers : value)
         (heap : gmap positive (McpProxy.object value)),
    let self := fst (McpProxy.create cls url path servers heap) in
    let heap' := snd (McpProxy.create cls url path servers heap) in
    heap !! self = None
    /\ heap' !! self
       = Some {| McpProxy.class_name := "MCPProxy";
                 McpProxy.attrs := {[ "openapi_url" := url;
                                      "client_source_path" := path;
                                      "servers" := servers ]} |}
    /\ delete self heap' = heap.
Proof.
  intros value cls url path servers heap. unfold McpProxy.create.
  rewrite MCPProxy_heap. simpl.
  assert (Hfresh : heap !! fresh (dom heap) = None)
    by (apply not_elem_of_dom, is_fresh).
  split; [exact Hfresh|]. split.
  - rewrite lookup_insert_eq. reflexivity.
  - rewrite delete_insert_eq. by apply delete_id.
Qed.

(** ** The command line of the script *)

Section CommandLineFacts.

Import McpServer.

Lemma check_value_transport (value : string) :
  check_value transport_choices value = true
  <-> value = "stdio" \/ value = "sse".
Proof.
  unfold check_value, transport_choices. cbn [existsb].
  rewrite !orb_true_iff, !String.eqb_eq. intuition discriminate.
Qed.

Lemma parse_args_single (value : string) :
  (exists args, parse_args [value] = Parsed args)
  <-> value = "stdio" \/ value = "sse".
Proof.
  rewrite <- check_value_transport. unfold parse_args.
  destruct (check_value transport_choices value); split.
  - reflexivity.
  - intros _. eexists. reflexivity.
  - intros [args H]. discriminate.
  - discriminate.
Qed.

Lemma parse_args_stdio : parse_args ["stdio"] = Parsed {| transport := "stdio" |}.
Proof. reflexivity. Qed.

Lemma parse_args_sse : parse_args ["sse"] = Parsed {| transport := "sse" |}.
Proof. reflexivity. Qed.

End CommandLineFacts.

(** C5: the claim lists [streamable-http] among the accepted values of the
    positional transport argument. On the command line [streamable-http] the
    parser of the script reports an invalid choice and the process ends with
    status 2: the [choices] list holds only [stdio] and [sse]. *)
Theorem streamable_http_rejected :
  McpServer.parse_args ["streamable-http"]
    = McpServer.ArgumentError
        (McpServer.InvalidChoice "transport" "streamable-http")
  /\ McpServer.main ["streamable-http"] = McpServer.Exit 2.
Proof. split; reflexivity. Qed.

(** ** The server script generator *)

Section GeneratorFacts.

Import ServerScript.

Lemma write_text_lookup (path data : string) (fs : gmap string string) :
  snd (write_text path data fs) !! path = Some data.
Proof. unfold write_text. simpl. apply lookup_insert_eq. Qed.

Lemma write_text_frame (path data other : string) (fs : gmap string string) :
  other <> path -> snd (write_text path data fs) !! other = fs !! other.
Proof. intros Hne. unfold write_text. simpl. by rewrite lookup_insert_ne. Qed.

Lemma script_has_choices_line :
  script_lines !! 31%nat
  = Some ("    parser.add_argument(" +:+ q "transport" +:+ ", choices=["
          +:+ q "stdio" +:+ ", " +:+ q "sse" +:+ "], help="
          +:+ q "Transport mode (stdio, sse or streamable-http)" +:+ ")").
Proof. reflexivity. Qed.

Lemma script_length : String.length mcp_server_file_content = 800%nat.
Proof. vm_compute. reflexivity. Qed.

End GeneratorFacts.

(** C8: the generator takes no input and is deterministic: from any two
    file systems it leaves [mcp_server.py] with the same content, the
    literal [mcp_server_file_content], and returns the same count. *)
Theorem write_server_script_deterministic :
  forall fs1 fs2 : gmap string string,
    snd (ServerScript.write_server_script fs1) !! "mcp_server.py"
      = Some ServerScript.mcp_server_file_content
    /\ snd (ServerScript.write_server_script fs2) !! "mcp_server.py"
       = snd (ServerScript.write_server_script fs1) !! "mcp_server.py"
    /\ fst (ServerScript.write_server_script fs2)
       = fst (ServerScript.write_server_script fs1).
Proof.
  intros fs1 fs2. unfold ServerScript.write_server_script.
  change "mcp_server.py" with ServerScript.mcp_server_path.
  rewrite !write_text_lookup. repeat split.
Qed.

(** ** The connection cells *)

Section DriverFacts.

Import ClientDriver.

Variable create_toolkit : list request.
Variable a_run : list request.

Lemma issue_only_requests (ok : nat -> bool) (rs : list request) :
  forall (k : nat) (e : event),
    In e (issue ok k rs) -> exists r b, e = Request r b.
Proof.
  induction rs as [|r rs IH]; intros k e Hin; simpl in Hin.
  - contradiction.
  - destruct (ok k).
    + destruct Hin as [<-|Hin]; [eauto|]. exact (IH _ _ Hin).
    + destruct Hin as [<-|[]]. eauto.
Qed.

(** The only session a run constructs is the one of the cell header. *)
Lemma run_new_session (ok : nat -> bool) (c : cell) (t : option timedelta) :
  In (NewSession t) (run create_toolkit a_run ok c) ->
  t = read_timeout_seconds c.
Proof.
  unfold run. destruct (ok 0%nat); simpl.
  - intros [H|[H|H]]; [discriminate|congruence|].
    apply in_app_or in H. destruct H as [H|H].
    + apply issue_only_requests in H. destruct H as (r & b & H). discriminate.
    + simpl in H. destruct H as [H|[H|[]]]; discriminate.
  - intros [H|[]]. discriminate.
Qed.

Lemma run_opens_session (c : cell) :
  In (NewSession (read_timeout_seconds c))
     (run create_toolkit a_run (fun _ => true) c).
Proof. unfold run. simpl. right. left. reflexivity. Qed.

Lemma initialized_first_ready (t : list event) :
  initialized_first true t = true.
Proof.
  induction t as [|e t IH]; simpl; [reflexivity|].
  destruct e as [| |r b| |]; try exact IH.
  destruct r; try destruct b; simpl; exact IH.
Qed.

Lemma initialized_first_sound (t : list event) :
  forall (ready : bool),
    initialized_first ready t = true ->
    forall (pre post : list event) (r : request) (b : bool),
      t = pre ++ Request r b :: post ->
      is_tool_request r = true ->
      ready = true \/ In (Request initialize true) pre.
Proof.
  induction t as [|e t IH]; intros ready Hscan pre post r b Hsplit Htool.
  - destruct pre; discriminate.
  - destruct pre as [|e' pre'].
    + simpl in Hsplit. injection Hsplit as -> _.
      left. simpl in Hscan.
      destruct r; try discriminate; simpl in Hscan;
        apply andb_true_iff in Hscan; tauto.
    + simpl in Hsplit. injection Hsplit as <- Hsplit.
      assert (Hnext : exists ready',
                 initialized_first ready' t = true
                 /\ (ready' = true -> ready = true \/ e = Request initialize true)).
      { simpl in Hscan.
        destruct e as [| |r0 b0| |]; try (exists ready; tauto).
        destruct r0; try destruct b0; simpl in Hscan;
          try (exists ready; tauto);
          try (exists true; split; [exact Hscan | tauto]);
          apply andb_true_iff in Hscan; exists ready; tauto. }
      destruct Hnext as (ready' & Hscan' & Hready).
      destruct (IH ready' Hscan' pre' post r b Hsplit Htool) as [H|H].
      * destruct (Hready H) as [H'|H']; [left; exact H'|right; left; exact H'].
      * right. right. exact H.
Qed.

Lemma run_initialized_first (ok : nat -> bool) (c : cell) (rest : list stmt) :
  body c = await_initialize :: rest ->
  initialized_first false (run create_toolkit a_run ok c) = true.
Proof.
  intros Hbody. unfold run. rewrite Hbody.
  destruct (ok 0%nat); [|reflexivity].
  cbn [flat_map requests_of app issue initialized_first].
  destruct (ok 1%nat); cbn [initialized_first app is_tool_request];
    [apply initialized_first_ready | reflexivity].
Qed.

Lemma cells_start_with_initialize (c : cell) :
  In c connection_cells -> exists rest, body c = await_initialize :: rest.
Proof.
  unfold connection_cells. simpl.
  intros [<-|[<-|[<-|[<-|[<-|[<-|[]]]]]]]; eexists; reflexivity.
Qed.

Lemma cells_timeout (c : cell) :
  In c connection_cells ->
  read_timeout_seconds c
  = if is_stdio (transport c) then Some (timedelta_seconds 30) else None.
Proof.
  unfold connection_cells. simpl.
  intros [<-|[<-|[<-|[<-|[<-|[<-|[]]]]]]]; reflexivity.
Qed.

End DriverFacts.

(** C6 as stated fails: in the SSE cell of [mcp_client.ipynb] the session
    is constructed from the two streams alone, with no read timeout, so
    not every session gets 30 seconds. *)
Lemma sse_session_has_no_timeout :
  ~ (forall (create_toolkit a_run : list ClientDriver.request)
            (ok : nat -> bool) (c : ClientDriver.cell)
            (t : option ClientDriver.timedelta),
        In c ClientDriver.connection_cells ->
        In (ClientDriver.NewSession t)
           (ClientDriver.run create_toolkit a_run ok c) ->
        t = Some (ClientDriver.timedelta_seconds 30)).
Proof.
  intros H.
  specialize (H [] [] (fun _ => true) ClientDriver.client_sse_cell None).
  assert (Hcell : In ClientDriver.client_sse_cell ClientDriver.connection_cells)
    by (right; left; reflexivity).
  specialize (H Hcell (run_opens_session [] [] ClientDriver.client_sse_cell)).
  discriminate H.
Qed.

(** C6, amended: every ClientSession constructed in a stdio connection cell
    is passed a read timeout of exactly 30 seconds; the ClientSession of an
    SSE connection cell is constructed without a read timeout. *)
Theorem session_timeout_by_transport :
  forall (create_toolkit a_run : list ClientDriver.request)
         (ok : nat -> bool) (c : ClientDriver.cell)
         (t : option ClientDriver.timedelta),
    In c ClientDriver.connection_cells ->
    In (ClientDriver.NewSession t)
       (ClientDriver.run create_toolkit a_run ok c) ->
    t = if ClientDriver.is_stdio (ClientDriver.transport c)
        then Some (ClientDriver.timedelta_seconds 30)
        else None.
Proof.
  intros create_toolkit a_run ok c t Hcell Hnew.
  rewrite (run_new_session _ _ _ _ _ Hnew). apply cells_timeout. exact Hcell.
Qed.

Lemma stdio_session_timeout :
  In ClientDriver.client_stdio_cell ClientDriver.connection_cells
  /\ In (ClientDriver.NewSession (Some (ClientDriver.timedelta_seconds 30)))
        (ClientDriver.run [ClientDriver.list_tools] [] (fun _ => true)
           ClientDriver.client_stdio_cell)
  /\ Some (ClientDriver.timedelta_seconds 30)
     = Some {| ClientDriver.days := 0; ClientDriver.seconds := 30;
               ClientDriver.microseconds := 0 |}.
Proof.
  assert (Hcell : In ClientDriver.client_stdio_cell ClientDriver.connection_cells)
    by (left; reflexivity).
  assert (Hnew : In (ClientDriver.NewSession
                       (Some (ClientDriver.timedelta_seconds 30)))
                    (ClientDriver.run [ClientDriver.list_tools] []
                       (fun _ => true) ClientDriver.client_stdio_cell))
    by (right; left; reflexivity).
  split; [exact Hcell|]. split; [exact Hnew|].
  exact (session_timeout_by_transport [ClientDriver.list_tools] []
           (fun _ => true) ClientDriver.client_stdio_cell _ Hcell Hnew).
Defined.

(** C7: in every connection cell, for every transport and whatever calls
    fail, a list-tools or call-tool request on the session comes only after
    the [initialize] request of that session has completed. *)
Theorem initialize_precedes_tool_requests :
  forall (create_toolkit a_run : list ClientDriver.request)
         (ok : nat -> bool) (c : ClientDriver.cell)
         (pre post : list ClientDriver.event)
         (r : ClientDriver.request) (b : bool),
    In c ClientDriver.connection_cells ->
    ClientDriver.run create_toolkit a_run ok c
      = pre ++ ClientDriver.Request r b :: post ->
    ClientDriver.is_tool_request r = true ->
    In (ClientDriver.Request ClientDriver.initialize true) pre.
Proof.
  intros create_toolkit a_run ok c pre post r b Hcell Hsplit Htool.
  destruct (cells_start_with_initialize c Hcell) as [rest Hbody].
  pose proof (run_initialized_first create_toolkit a_run ok c rest Hbody) as Hscan.
  destruct (initialized_first_sound _ false Hscan pre post r b Hsplit Htool)
    as [H|H]; [discriminate|exact H].
Qed.

Lemma proxy_tools_cell_order :
  In ClientDriver.proxy_tools_cell ClientDriver.connection_cells
  /\ ClientDriver.run [] [] (fun _ => true) ClientDriver.proxy_tools_cell
     = [ ClientDriver.Connect
           (ClientDriver.stdio_client "python" ["mcp_whatsapp"; "stdio"] None)
           true;
         ClientDriver.NewSession (Some (ClientDriver.timedelta_seconds 30));
         ClientDriver.Request ClientDriver.initialize true ]
       ++ ClientDriver.Request ClientDriver.list_tools true
       :: [ ClientDriver.Request
              (ClientDriver.call_tool "add" [("a", 2); ("b", 3)]) true;
            ClientDriver.CloseSession; ClientDriver.Disconnect ]
  /\ ClientDriver.is_tool_request ClientDriver.list_tools = true
  /\ In (ClientDriver.Request ClientDriver.initialize true)
        [ ClientDriver.Connect
            (ClientDriver.stdio_client "python" ["mcp_whatsapp"; "stdio"] None)
            true;
          ClientDriver.NewSession (Some (ClientDriver.timedelta_seconds 30));
          ClientDriver.Request ClientDriver.initialize true ].
Proof.
  assert (Hcell : In ClientDriver.proxy_tools_cell ClientDriver.connection_cells)
    by (right; right; left; reflexivity).
  split; [exact Hcell|]. split; [reflexivity|]. split; [reflexivity|].
  apply (initialize_precedes_tool_requests [] [] (fun _ => true)
           ClientDriver.proxy_tools_cell _
           [ ClientDriver.Request
               (ClientDriver.call_tool "add" [("a", 2); ("b", 3)]) true;
             ClientDriver.CloseSession; ClientDriver.Disconnect ]
           ClientDriver.list_tools true Hcell);
    reflexivity.
Defined.

(** * Further properties of the script *)

Section ScriptFacts.

Import McpServer.

Lemma main_parsed (argv : list string) (mode : string) :
  main argv = Running mode <-> parse_args argv = Parsed {| transport := mode |}.
Proof.
  unfold main. destruct (parse_args argv) as [[t]|e]; simpl.
  - split; intros H; injection H as ->; reflexivity.
  - split; discriminate.
Qed.

Lemma parse_args_parsed (argv : list string) (mode : string) :
  parse_args argv = Parsed {| transport := mode |}
  <-> argv = [mode] /\ check_value transport_choices mode = true.
Proof.
  unfold parse_args. destruct argv as [|value extras].
  - split; [discriminate | intros [H _]; discriminate].
  - destruct (check_value transport_choices value) eqn:Hcheck.
    + destruct extras as [|extra extras].
      * split.
        -- intros H. injection H as ->. split; [reflexivity | exact Hcheck].
        -- intros [H _]. injection H as ->. reflexivity.
      * split; [discriminate | intros [H _]; discriminate].
    + split; [discriminate|].
      intros [H Hmode]. injection H as -> ->. congruence.
Qed.

Lemma main_outcomes (argv : list string) :
  main argv = Exit 2 \/ exists mode, main argv = Running mode.
Proof.
  unfold main. destruct (parse_args argv); [right; eauto | left; reflexivity].
Qed.

Lemma prefix_not_found (name : string) :
  String.prefix "File not found: " ("File not found: " +:+ name) = true.
Proof. cbn. destruct name; reflexivity. Qed.




End ScriptFacts.

(** X1: on a command line of plain words (none beginning with ['-']) the
    script starts serving exactly when the line is the single word [stdio]
    or [sse], in the mode the word names; on every other such line (empty, a
    different word, extra words) it exits with status 2. *)
Theorem main_running_iff :
  forall (argv : list string) (mode : string),
    forallb Argv.plain_word argv = true ->
    (McpServer.main argv = McpServer.Running mode
     <-> argv = [mode] /\ (mode = "stdio" \/ mode = "sse"))
    /\ (McpServer.main argv = McpServer.Exit 2
        <-> argv <> ["stdio"] /\ argv <> ["sse"]).
Proof.
  intros argv mode _.
  assert (Hrun : forall m, McpServer.main argv = McpServer.Running m
                           <-> argv = [m] /\ (m = "stdio" \/ m = "sse")).
  { intros m. rewrite main_parsed, parse_args_parsed, check_value_transport.
    reflexivity. }
  split; [apply Hrun|]. split.
  - intros Hexit. split; intros ->; discriminate Hexit.
  - intros [Hstdio Hsse].
    destruct (main_outcomes argv) as [H|[m H]]; [exact H|].
    apply Hrun in H. destruct H as [-> [->| ->]]; congruence.
Qed.

Lemma main_two_words_exits :
  forallb Argv.plain_word ["sse"; "8000"] = true
  /\ McpServer.main ["sse"; "8000"] = McpServer.Exit 2.
Proof.
  split; [reflexivity|].
  apply (main_running_iff ["sse"; "8000"] "sse"); [reflexivity|].
  split; discriminate.
Defined.


(** X3: the reply of [get_server_file] begins with [File not found: ]
    exactly when the name is not a key of [files], so a reader can tell the
    in-band error from the content of a file. *)
Theorem not_found_reply_is_distinct :
  forall name : string,
    exists s : string,
      McpServer.get_server_file name = Return s
      /\ (String.prefix "File not found: " s = true
          <-> McpServer.files !! name = None).
Proof.
  intros name. eexists. split; [reflexivity|].
  unfold PyDict.get.
  destruct (McpServer.files !! name) as [text|] eqn:Hlookup.
  - unfold McpServer.files in Hlookup.
    apply lookup_singleton_Some in Hlookup. destruct Hlookup as [_ <-].
    split; [intros H; vm_compute in H|]; discriminate.
  - split; [reflexivity | intros _; apply prefix_not_found].
Qed.


(** X5: the cell that writes the script changes no other file: every path
    but [mcp_server.py] holds afterwards what it held before. *)
Theorem write_server_script_frame :
  forall (fs : gmap string string) (path : string),
    path <> "mcp_server.py" ->
    snd (ServerScript.write_server_script fs) !! path = fs !! path.
Proof.
  intros fs path Hne. unfold ServerScript.write_server_script.
  apply write_text_frame. exact Hne.
Qed.

Lemma write_server_script_keeps_notes :
  "notes.txt" <> "mcp_server.py"
  /\ snd (ServerScript.write_server_script {[ "notes.txt" := "todo" ]}) !! "notes.txt"
     = ({[ "notes.txt" := "todo" ]} : gmap string string) !! "notes.txt".
Proof.
  split; [discriminate|].
  apply (write_server_script_frame {[ "notes.txt" := "todo" ]} "notes.txt").
  discriminate.
Defined.

(** X6: running the cell again changes nothing: the second run returns the
    same count and leaves the file system of the first run, whatever was in
    [mcp_server.py] at the start. *)
Theorem write_server_script_idempotent :
  forall fs : gmap string string,
    ServerScript.write_server_script (snd (ServerScript.write_server_script fs))
    = ServerScript.write_server_script fs.
Proof.
  intros fs. unfold ServerScript.write_server_script, ServerScript.write_text.
  simpl. rewrite insert_insert_eq. reflexivity.
Qed.

(** X7: the stdio cell of [mcp_client.ipynb] launches [python] on the file
    the generator cell wrote, with the one further word [stdio]; the file
    holds the script and the script accepts that word and serves stdio. *)
Theorem stdio_cell_runs_written_script :
  forall fs : gmap string string,
    exists (script : string) (words : list string),
      Traces.command_line (ClientDriver.transport ClientDriver.client_stdio_cell)
        = "python" :: script :: words
      /\ snd (ServerScript.write_server_script fs) !! script
         = Some ServerScript.mcp_server_file_content
      /\ McpServer.main words = McpServer.Running "stdio".
Proof.
  intros fs. exists ServerScript.mcp_server_path, ["stdio"].
  split; [reflexivity|]. split; [|reflexivity].
  unfold ServerScript.write_server_script. apply write_text_lookup.
Qed.

(** * Further properties of [MCPProxy] *)

Section ProxyObjectFacts.

Import McpProxy ProxyInit.

Variable value : Type.

Lemma init_alter (self : positive) (openapi_url client_source_path servers : value)
    (heap : gmap positive (object value)) :
  init self openapi_url client_source_path servers heap
  = alter (initialised openapi_url client_source_path servers) self heap.
Proof.
  unfold init, setattr. apply map_eq. intros i.
  destruct (decide (self = i)) as [<-|Hne].
  - rewrite !lookup_alter_eq. destruct (heap !! self); reflexivity.
  - rewrite !lookup_alter_ne by exact Hne. reflexivity.
Qed.

Lemma initialised_twice (u1 p1 s1 u2 p2 s2 : value) (o : object value) :
  initialised u2 p2 s2 (initialised u1 p1 s1 o) = initialised u2 p2 s2 o.
Proof.
  unfold initialised. simpl. f_equal.
  apply map_eq. intros k. rewrite !lookup_insert.
  repeat case_decide; reflexivity.
Qed.

End ProxyObjectFacts.

(** X8: two calls of [MCPProxy.create] return two different instances, and
    the second call leaves the first instance as it was, whatever class
    each call is made on. *)
Theorem create_twice_distinct :
  forall (value : Type) (cls1 cls2 : string)
         (url1 path1 servers1 url2 path2 servers2 : value)
         (heap : gmap positive (McpProxy.object value)),
    let first := McpProxy.create cls1 url1 path1 servers1 heap in
    let second := McpProxy.create cls2 url2 path2 servers2 (snd first) in
    fst second <> fst first
    /\ snd second !! fst first = snd first !! fst first
    /\ is_Some (snd second !! fst second).
Proof.
  intros value cls1 cls2 url1 path1 servers1 url2 path2 servers2 heap.
  unfold McpProxy.create. rewrite !MCPProxy_heap. cbn [fst snd].
  set (heap1 := <[fresh (dom heap) := _]> heap).
  assert (Hne : fresh (dom heap1) <> fresh (dom heap)).
  { intros Heq. apply (is_fresh (dom heap1)). rewrite Heq.
    unfold heap1. rewrite dom_insert_L. set_solver. }
  split; [exact Hne|]. split.
  - rewrite lookup_insert_ne by exact Hne. reflexivity.
  - rewrite lookup_insert_eq. eauto.
Qed.

(** X9: [__init__] on an existing instance sets the three attributes to the
    arguments and keeps the class and every other attribute of the instance;
    all other objects of the store are untouched. *)
Theorem init_sets_three_attributes :
  forall (value : Type) (self : positive) (url path servers : value)
         (o : McpProxy.object value)
         (heap : gmap positive (McpProxy.object value)),
    heap !! self = Some o ->
    exists o' : McpProxy.object value,
      McpProxy.init self url path servers heap !! self = Some o'
      /\ McpProxy.class_name o' = McpProxy.class_name o
      /\ McpProxy.attrs o' !! "openapi_url" = Some url
      /\ McpProxy.attrs o' !! "client_source_path" = Some path
      /\ McpProxy.attrs o' !! "servers" = Some servers
      /\ (forall k : string,
            k <> "openapi_url" -> k <> "client_source_path" -> k <> "servers" ->
            McpProxy.attrs o' !! k = McpProxy.attrs o !! k)
      /\ (forall other : positive,
            other <> self ->
            McpProxy.init self url path servers heap !! other = heap !! other).
Proof.
  intros value self url path servers o heap Hself.
  exists (ProxyInit.initialised url path servers o).
  rewrite init_alter. split.
  - rewrite lookup_alter_eq, Hself. reflexivity.
  - split; [reflexivity|]. unfold ProxyInit.initialised. cbn [McpProxy.attrs].
    split; [do 2 (rewrite lookup_insert_ne by discriminate);
            apply lookup_insert_eq|].
    split; [rewrite lookup_insert_ne by discriminate; apply lookup_insert_eq|].
    split; [apply lookup_insert_eq|].
    split.
    + intros k Hu Hp Hs. by rewrite !lookup_insert_ne.
    + intros other Hne. by rewrite lookup_alter_ne.
Qed.

Lemma init_keeps_label :
  ({[ 1%positive := {| McpProxy.class_name := "MCPProxy";
                       McpProxy.attrs := {[ "label" := "old" ]} |} ]}
     : gmap positive (McpProxy.object string)) !! 1%positive
  = Some {| McpProxy.class_name := "MCPProxy";
            McpProxy.attrs := {[ "label" := "old" ]} |}
  /\ exists o' : McpProxy.object string,
       McpProxy.init 1%positive "url" "path" "servers"
         {[ 1%positive := {| McpProxy.class_name := "MCPProxy";
                             McpProxy.attrs := {[ "label" := "old" ]} |} ]}
         !! 1%positive = Some o'
       /\ McpProxy.attrs o' !! "label" = Some "old"
       /\ McpProxy.attrs o' !! "servers" = Some "servers".
Proof.
  assert (Hself :
    ({[ 1%positive := {| McpProxy.class_name := "MCPProxy";
                         McpProxy.attrs := {[ "label" := "old" ]} |} ]}
       : gmap positive (McpProxy.object string)) !! 1%positive
    = Some {| McpProxy.class_name := "MCPProxy";
              McpProxy.attrs := {[ "label" := "old" ]} |})
    by reflexivity.
  split; [exact Hself|].
  destruct (init_sets_three_attributes string 1%positive "url" "path" "servers"
              _ _ Hself)
    as (o' & Hlookup & _ & _ & _ & Hservers & Hother & _).
  exists o'. split; [exact Hlookup|]. split; [|exact Hservers].
  rewrite Hother; [reflexivity | discriminate | discriminate | discriminate].
Defined.

(** X10: initialising an instance a second time overwrites the first
    initialisation: the store is the one a single [__init__] with the
    later arguments gives. *)
Theorem init_last_wins :
  forall (value : Type) (self : positive)
         (url1 path1 servers1 url2 path2 servers2 : value)
         (heap : gmap positive (McpProxy.object value)),
    McpProxy.init self url2 path2 servers2
      (McpProxy.init self url1 path1 servers1 heap)
    = McpProxy.init self url2 path2 servers2 heap.
Proof.
  intros value self url1 path1 servers1 url2 path2 servers2 heap.
  rewrite !init_alter. apply map_eq. intros i.
  destruct (decide (self = i)) as [<-|Hne].
  - rewrite !lookup_alter_eq. destruct (heap !! self) as [o|]; simpl;
      [rewrite initialised_twice|]; reflexivity.
  - rewrite !lookup_alter_ne by exact Hne. reflexivity.
Qed.

(** * Further properties of the connection cells *)

Section TraceFacts.

Import ClientDriver Traces.

Variable create_toolkit : list request.
Variable a_run : list request.






End TraceFacts.







(** * Properties of the tool-listing cell *)

Section ToolsCellFacts.

Import ToolsCell.

Lemma for_each_print {A : Type} (line : A -> string) (xs : list A) :
  for_each xs (fun x => print (line x)) = (map line xs, Done tt).
Proof.
  induction xs as [|x xs IH]; [reflexivity|].
  cbn [for_each]. rewrite IH. reflexivity.
Qed.

Lemma print_available_tools_done (s : session) (tools : list tool) :
  list_tools s = Done tools ->
  print_available_tools s = ("Available tools:" :: map tool_line tools, Done tt).
Proof.
  intros Hlist. unfold print_available_tools. rewrite Hlist.
  unfold await, mbind, io_bind. rewrite for_each_print. reflexivity.
Qed.

Lemma print_available_tools_raised (s : session) (e : exception) :
  list_tools s = Raised e -> print_available_tools s = ([], Raised e).
Proof. intros Hlist. unfold print_available_tools. rewrite Hlist. reflexivity. Qed.

Lemma print_available_tools_cases (s : session) :
  print_available_tools s
  = match list_tools s with
    | Done tools => ("Available tools:" :: map tool_line tools, Done tt)
    | Raised e => ([], Raised e)
    end.
Proof.
  destruct (list_tools s) as [tools|e] eqn:Hlist.
  - apply print_available_tools_done. exact Hlist.
  - apply print_available_tools_raised. exact Hlist.
Qed.

End ToolsCellFacts.

(** X15: [print_available_tools] prints the header and then one line per
    tool, in the order of the server's list, a missing description showing
    as the word None; when listing the tools fails it prints nothing, not even
    the header, and the error is passed on. *)
Theorem print_available_tools_output :
  forall s : ToolsCell.session,
    ToolsCell.print_available_tools s
    = match ToolsCell.list_tools s with
      | ToolsCell.Done tools =>
          ("Available tools:" :: map ToolsCell.tool_line tools,
           ToolsCell.Done tt)
      | ToolsCell.Raised e => ([], ToolsCell.Raised e)
      end.
Proof.
  intros s. destruct (ToolsCell.list_tools s) as [tools|e] eqn:Hlist.
  - apply print_available_tools_done. exact Hlist.
  - apply print_available_tools_raised. exact Hlist.
Qed.

(** X16: the tool-listing block runs to its end exactly when the session
    answers all three calls and the first entry of the content of the [add]
    result is text; it has then printed the header, the tool lines, a blank
    line and the result line with that text, whatever else the content
    holds. *)
Theorem tools_cell_completes_iff :
  forall (s : ToolsCell.session) (out : list string),
    ToolsCell.tools_cell_body s = (out, ToolsCell.Done tt)
    <-> exists (tools : list ToolsCell.tool) (text : string)
               (rest : list ToolsCell.content),
          ToolsCell.initialize s = ToolsCell.Done tt
          /\ ToolsCell.list_tools s = ToolsCell.Done tools
          /\ ToolsCell.call_tool s "add" ToolsCell.params
             = ToolsCell.Done (ToolsCell.TextContent text :: rest)
          /\ out = "Available tools:" :: map ToolsCell.tool_line tools
                   ++ [EmptyString; ToolsCell.result_line text].
Proof.
  intros s out. unfold ToolsCell.tools_cell_body.
  rewrite print_available_tools_cases.
  destruct (ToolsCell.initialize s) as [[]|e0];
    [|split; [discriminate | intros (? & ? & ? & H & _); discriminate]].
  destruct (ToolsCell.list_tools s) as [tools|e1];
    [|split; [discriminate | intros (? & ? & ? & _ & H & _); discriminate]].
  destruct (ToolsCell.call_tool s "add" ToolsCell.params) as [[|[text|] rest]|e2];
    cbn; try (split; [discriminate | intros (? & ? & ? & _ & _ & H & _); discriminate]).
  split.
  - intros H. injection H as <-. exists tools, text, rest.
    repeat split.
  - intros (tools' & text' & rest' & _ & Htools & Hcall & ->).
    injection Htools as <-. injection Hcall as <- _.
    reflexivity.
Qed.

(** X17: a failing handshake or tool listing stops the block at once: nothing
    is printed, the [add] tool is not reached, and the block ends with that
    error. *)
Theorem tools_cell_stops_early :
  forall (s : ToolsCell.session) (e : ToolsCell.exception),
    ToolsCell.initialize s = ToolsCell.Raised e
    \/ (ToolsCell.initialize s = ToolsCell.Done tt
        /\ ToolsCell.list_tools s = ToolsCell.Raised e) ->
    ToolsCell.tools_cell_body s = ([], ToolsCell.Raised e).
Proof.
  intros s e [Hinit|[Hinit Hlist]]; unfold ToolsCell.tools_cell_body;
    rewrite Hinit; [reflexivity|].
  rewrite print_available_tools_cases, Hlist. reflexivity.
Qed.

Lemma tools_cell_listing_fails :
  (ToolsCell.initialize
     {| ToolsCell.initialize := ToolsCell.Done tt;
        ToolsCell.list_tools := ToolsCell.Raised (ToolsCell.McpError "timed out");
        ToolsCell.call_tool := fun _ _ => ToolsCell.Done [ToolsCell.TextContent "5"] |}
   = ToolsCell.Raised (ToolsCell.McpError "timed out")
   \/ (ToolsCell.initialize
         {| ToolsCell.initialize := ToolsCell.Done tt;
            ToolsCell.list_tools := ToolsCell.Raised (ToolsCell.McpError "timed out");
            ToolsCell.call_tool := fun _ _ => ToolsCell.Done [ToolsCell.TextContent "5"] |}
       = ToolsCell.Done tt
       /\ ToolsCell.list_tools
            {| ToolsCell.initialize := ToolsCell.Done tt;
               ToolsCell.list_tools := ToolsCell.Raised (ToolsCell.McpError "timed out");
               ToolsCell.call_tool := fun _ _ => ToolsCell.Done [ToolsCell.TextContent "5"] |}
          = ToolsCell.Raised (ToolsCell.McpError "timed out")))
  /\ ToolsCell.tools_cell_body
       {| ToolsCell.initialize := ToolsCell.Done tt;
          ToolsCell.list_tools := ToolsCell.Raised (ToolsCell.McpError "timed out");
          ToolsCell.call_tool := fun _ _ => ToolsCell.Done [ToolsCell.TextContent "5"] |}
     = ([], ToolsCell.Raised (ToolsCell.McpError "timed out")).
Proof.
  split; [right; split; reflexivity|].
  apply tools_cell_stops_early. right. split; reflexivity.
Defined.

(** X18: when the [add] result comes back with an empty content list, the
    block has printed the header, the tool lines and the blank line, and then
    ends with an index error; the result line is not printed. *)
Theorem tools_cell_empty_content :
  forall (s : ToolsCell.session) (tools : list ToolsCell.tool),
    ToolsCell.initialize s = ToolsCell.Done tt ->
    ToolsCell.list_tools s = ToolsCell.Done tools ->
    ToolsCell.call_tool s "add" ToolsCell.params = ToolsCell.Done [] ->
    ToolsCell.tools_cell_body s
    = ("Available tools:" :: map ToolsCell.tool_line tools ++ [EmptyString],
       ToolsCell.Raised ToolsCell.IndexError).
Proof.
  intros s tools Hinit Hlist Hcall. unfold ToolsCell.tools_cell_body.
  rewrite Hinit, print_available_tools_cases, Hlist, Hcall. reflexivity.
Qed.

Lemma tools_cell_no_content :
  ToolsCell.tools_cell_body
    {| ToolsCell.initialize := ToolsCell.Done tt;
       ToolsCell.list_tools :=
         ToolsCell.Done [ {| ToolsCell.name := "add";
                             ToolsCell.description := None;
                             ToolsCell.inputSchema := "{}" |} ];
       ToolsCell.call_tool := fun _ _ => ToolsCell.Done [] |}
  = (["Available tools:"; "- add: None ({})"; EmptyString],
     ToolsCell.Raised ToolsCell.IndexError).
Proof.
  apply (tools_cell_empty_content
           {| ToolsCell.initialize := ToolsCell.Done tt;
              ToolsCell.list_tools :=
                ToolsCell.Done [ {| ToolsCell.name := "add";
                                    ToolsCell.description := None;
                                    ToolsCell.inputSchema := "{}" |} ];
              ToolsCell.call_tool := fun _ _ => ToolsCell.Done [] |}
           [ {| ToolsCell.name := "add"; ToolsCell.description := None;
                ToolsCell.inputSchema := "{}" |} ]);
    reflexivity.
Defined.

(** * Properties of the directory set-up *)

Section SetupFacts.

Import ProxySetup.

Lemma rmtree_directory (fs : gmap (list string) node) (path : list string) :
  fs !! path = Some Dir ->
  rmtree_ignore_errors path fs
  = filter (fun entry => ~ path `prefix_of` entry.1) fs.
Proof. intros H. unfold rmtree_ignore_errors. rewrite H. reflexivity. Qed.

Lemma rmtree_not_directory (fs : gmap (list string) node) (path : list string) :
  fs !! path <> Some Dir -> rmtree_ignore_errors path fs = fs.
Proof.
  intros H. unfold rmtree_ignore_errors.
  destruct (fs !! path) as [[|text]|]; congruence.
Qed.

Lemma removed_lookup (fs : gmap (list string) node) (path p : list string) :
  filter (fun entry : list string * node => ~ path `prefix_of` entry.1) fs !! p
  = if decide (path `prefix_of` p) then None else fs !! p.
Proof.
  case_decide as Hprefix.
  - apply map_lookup_filter_None. right. intros x _ Hnot. exact (Hnot Hprefix).
  - destruct (fs !! p) as [x|] eqn:Hp.
    + apply map_lookup_filter_Some. split; [exact Hp | exact Hprefix].
    + apply map_lookup_filter_None. left. exact Hp.
Qed.

(** Outside the tree of [path], [rmtree] changes nothing. *)
Lemma rmtree_outside (fs : gmap (list string) node) (path p : list string) :
  ~ path `prefix_of` p -> rmtree_ignore_errors path fs !! p = fs !! p.
Proof.
  intros Hout. unfold rmtree_ignore_errors.
  destruct (fs !! path) as [[|text]|]; try reflexivity.
  rewrite removed_lookup. case_decide; [contradiction | reflexivity].
Qed.

Lemma mkdir_single (fs : gmap (list string) node) (component : string) :
  mkdir_parents_exist_ok [component] fs
  = match fs !! [component] with
    | Some Dir => Done fs
    | Some (File _) => Failed FileExistsError
    | None => Done (<[[component] := Dir]> fs)
    end.
Proof.
  unfold mkdir_parents_exist_ok. cbn [mkdir_from app].
  destruct (fs !! [component]) as [[|text]|]; reflexivity.
Qed.

Lemma prepare_directory_cases (fs : gmap (list string) node) :
  prepare_directory fs
  = match fs !! mcp_whatsapp_path with
    | Some Dir =>
        Done (<[mcp_whatsapp_path := Dir]>
                (filter (fun entry : list string * node =>
                           ~ mcp_whatsapp_path `prefix_of` entry.1) fs))
    | Some (File _) => Failed FileExistsError
    | None => Done (<[mcp_whatsapp_path := Dir]> fs)
    end.
Proof.
  unfold prepare_directory, mcp_whatsapp_path. rewrite mkdir_single.
  destruct (fs !! ["mcp_whatsapp"]) as [[|text]|] eqn:Hpath.
  - rewrite (rmtree_directory _ _ Hpath), removed_lookup.
    case_decide as Hprefix; [reflexivity|]. exfalso. apply Hprefix. reflexivity.
  - rewrite rmtree_not_directory by congruence. rewrite Hpath. reflexivity.
  - rewrite rmtree_not_directory by congruence. rewrite Hpath. reflexivity.
Qed.

End SetupFacts.

(** X19: the set-up fails exactly when [mcp_whatsapp] is a regular file:
    [rmtree] leaves the file in place and [mkdir] raises the file-exists
    error. In every other case it succeeds, the directory exists afterwards,
    and nothing outside the directory has changed. *)
Theorem prepare_directory_outcome :
  forall fs : gmap (list string) ProxySetup.node,
    (exists text : string,
        fs !! ProxySetup.mcp_whatsapp_path = Some (ProxySetup.File text)
        /\ ProxySetup.prepare_directory fs
           = ProxySetup.Failed ProxySetup.FileExistsError)
    \/ (fs !! ProxySetup.mcp_whatsapp_path = Some ProxySetup.Dir
        \/ fs !! ProxySetup.mcp_whatsapp_path = None)
       /\ exists fs' : gmap (list string) ProxySetup.node,
            ProxySetup.prepare_directory fs = ProxySetup.Done fs'
            /\ fs' !! ProxySetup.mcp_whatsapp_path = Some ProxySetup.Dir
            /\ ProxySetup.path_exists ProxySetup.mcp_whatsapp_path fs' = true
            /\ forall p : list string,
                 ~ ProxySetup.mcp_whatsapp_path `prefix_of` p ->
                 fs' !! p = fs !! p.
Proof.
  intros fs. rewrite prepare_directory_cases.
  destruct (fs !! ProxySetup.mcp_whatsapp_path) as [[|text]|] eqn:Hpath.
  - right. split; [left; reflexivity|].
    eexists. split; [reflexivity|].
    split; [apply lookup_insert_eq|]. split.
    + unfold ProxySetup.path_exists, ProxySetup.mcp_whatsapp_path.
      apply bool_decide_eq_true. rewrite lookup_insert_eq. eauto.
    + intros p Hout.
      rewrite lookup_insert_ne by (intros <-; apply Hout; reflexivity).
      rewrite removed_lookup. case_decide; [contradiction | reflexivity].
  - left. exists text. split; reflexivity.
  - right. split; [right; reflexivity|].
    eexists. split; [reflexivity|].
    split; [apply lookup_insert_eq|]. split.
    + unfold ProxySetup.path_exists, ProxySetup.mcp_whatsapp_path.
      apply bool_decide_eq_true. rewrite lookup_insert_eq. eauto.
    + intros p Hout.
      rewrite lookup_insert_ne by (intros <-; apply Hout; reflexivity).
      reflexivity.
Qed.

(** X20: when [mcp_whatsapp] is a directory, the set-up leaves it empty:
    whatever lay below it, files and sub-directories, is gone. *)
Theorem prepare_directory_empties :
  forall (fs : gmap (list string) ProxySetup.node),
    fs !! ProxySetup.mcp_whatsapp_path = Some ProxySetup.Dir ->
    exists fs' : gmap (list string) ProxySetup.node,
      ProxySetup.prepare_directory fs = ProxySetup.Done fs'
      /\ forall p : list string,
           ProxySetup.mcp_whatsapp_path `prefix_of` p ->
           p <> ProxySetup.mcp_whatsapp_path ->
           fs' !! p = None.
Proof.
  intros fs Hdir. rewrite prepare_directory_cases, Hdir.
  eexists. split; [reflexivity|].
  intros p Hunder Hne. rewrite lookup_insert_ne by congruence.
  rewrite removed_lookup. case_decide; [reflexivity | contradiction].
Qed.

Lemma prepare_directory_drops_old_client :
  ({[ ["mcp_whatsapp"] := ProxySetup.Dir;
      ["mcp_whatsapp"; "main_tmp.py"] := ProxySetup.File "old";
      ["notes.txt"] := ProxySetup.File "todo" ]}
     : gmap (list string) ProxySetup.node) !! ProxySetup.mcp_whatsapp_path
  = Some ProxySetup.Dir
  /\ exists fs' : gmap (list string) ProxySetup.node,
       ProxySetup.prepare_directory
         {[ ["mcp_whatsapp"] := ProxySetup.Dir;
            ["mcp_whatsapp"; "main_tmp.py"] := ProxySetup.File "old";
            ["notes.txt"] := ProxySetup.File "todo" ]}
       = ProxySetup.Done fs'
       /\ fs' !! ["mcp_whatsapp"; "main_tmp.py"] = None.
Proof.
  assert (Hdir :
    ({[ ["mcp_whatsapp"] := ProxySetup.Dir;
        ["mcp_whatsapp"; "main_tmp.py"] := ProxySetup.File "old";
        ["notes.txt"] := ProxySetup.File "todo" ]}
       : gmap (list string) ProxySetup.node) !! ProxySetup.mcp_whatsapp_path
    = Some ProxySetup.Dir) by (vm_compute; reflexivity).
  split; [exact Hdir|].
  destruct (prepare_directory_empties _ Hdir) as (fs' & Hrun & Hempty).
  exists fs'. split; [exact Hrun|].
  apply Hempty; [|discriminate].
  exists ["main_tmp.py"]. reflexivity.
Defined.

(** X21: running the set-up again on its own result changes nothing, when
    the directory was there at the start. *)
Theorem prepare_directory_idempotent :
  forall (fs fs' : gmap (list string) ProxySetup.node),
    fs !! ProxySetup.mcp_whatsapp_path = Some ProxySetup.Dir ->
    ProxySetup.prepare_directory fs = ProxySetup.Done fs' ->
    ProxySetup.prepare_directory fs' = ProxySetup.Done fs'.
Proof.
  intros fs fs' Hdir Hrun.
  rewrite prepare_directory_cases, Hdir in Hrun. injection Hrun as <-.
  rewrite prepare_directory_cases, lookup_insert_eq. f_equal.
  apply map_eq. intros p.
  destruct (decide (p = ProxySetup.mcp_whatsapp_path)) as [->|Hne].
  - rewrite !lookup_insert_eq. reflexivity.
  - rewrite !lookup_insert_ne by congruence.
    rewrite !removed_lookup. case_decide; [reflexivity|].
    rewrite lookup_insert_ne by congruence.
    rewrite removed_lookup. case_decide; [contradiction | reflexivity].
Qed.

Lemma prepare_directory_twice :
  ({[ ["mcp_whatsapp"] := ProxySetup.Dir;
      ["mcp_whatsapp"; "main_tmp.py"] := ProxySetup.File "old" ]}
     : gmap (list string) ProxySetup.node) !! ProxySetup.mcp_whatsapp_path
  = Some ProxySetup.Dir
  /\ ProxySetup.prepare_directory
       {[ ["mcp_whatsapp"] := ProxySetup.Dir;
          ["mcp_whatsapp"; "main_tmp.py"] := ProxySetup.File "old" ]}
     = ProxySetup.Done {[ ["mcp_whatsapp"] := ProxySetup.Dir ]}
  /\ ProxySetup.prepare_directory {[ ["mcp_whatsapp"] := ProxySetup.Dir ]}
     = ProxySetup.Done {[ ["mcp_whatsapp"] := ProxySetup.Dir ]}.
Proof.
  assert (Hdir :
    ({[ ["mcp_whatsapp"] := ProxySetup.Dir;
        ["mcp_whatsapp"; "main_tmp.py"] := ProxySetup.File "old" ]}
       : gmap (list string) ProxySetup.node) !! ProxySetup.mcp_whatsapp_path
    = Some ProxySetup.Dir) by (vm_compute; reflexivity).
  assert (Hrun :
    ProxySetup.prepare_directory
      {[ ["mcp_whatsapp"] := ProxySetup.Dir;
         ["mcp_whatsapp"; "main_tmp.py"] := ProxySetup.File "old" ]}
    = ProxySetup.Done {[ ["mcp_whatsapp"] := ProxySetup.Dir ]})
    by (vm_compute; reflexivity).
  split; [exact Hdir|]. split; [exact Hrun|].
  exact (prepare_directory_idempotent _ _ Hdir Hrun).
Defined.
